(** * Verification of [icons/create_icons.py]

    The script builds three placeholder SVG icons.  Its only function with
    any logic is [create_svg_icon(size, add_snapshot)] (called [buildIcon] in
    the specification): a template-string builder with one conditional.

    Python integers are unbounded, so [size] is a [Z]; Python's [//] on a
    positive divisor is floor division, which is [Z.div]; the text returned
    is a [string].  The function [create_svg_icon] below is the text a call
    returns; module [Script] runs the call in the interpreter, where the
    conversion of an integer to text raises [ValueError] past the limit on
    its number of digits.  Memory exhaustion is outside the model. *)

From Stdlib Require Import ZArith Bool List Lia.
From Stdlib Require Import Strings.Ascii Strings.String.
From Stdlib Require Import Strings.Byte.
From Stdlib Require Import Numbers.DecimalString Numbers.DecimalPos Numbers.DecimalZ.
From Stdlib Require Import Numbers.DecimalFacts.
Import ListNotations.

Local Open Scope string_scope.
Local Open Scope Z_scope.

(** ** Text primitives used by the statements *)

Module Str.

(** [p] is a prefix of [s] (Python's [s.startswith(p)]). *)
Fixpoint starts_with (p s : string) : bool :=
  match p, s with
  | EmptyString, _ => true
  | String _ _, EmptyString => false
  | String a p', String b s' => Ascii.eqb a b && starts_with p' s'
  end.

(** [p] is a suffix of [s] (Python's [s.endswith(p)]). *)
Fixpoint ends_with (p s : string) : bool :=
  String.eqb p s ||
  match s with
  | EmptyString => false
  | String _ s' => ends_with p s'
  end.

(** [p] occurs somewhere in [s] (Python's [p in s]). *)
Fixpoint contains (p s : string) : bool :=
  starts_with p s ||
  match s with
  | EmptyString => false
  | String _ s' => contains p s'
  end.

(** Number of positions of [s] at which the non-empty text [p] starts. *)
Fixpoint occurrences (p s : string) : nat :=
  match s with
  | EmptyString => 0%nat
  | String _ s' => ((if starts_with p s then 1 else 0) + occurrences p s')%nat
  end.

(** The character [c] occurs in [s]. *)
Fixpoint mem (c : ascii) (s : string) : bool :=
  match s with
  | EmptyString => false
  | String x s' => Ascii.eqb x c || mem c s'
  end.

(** [s] without its first [n] characters ([s[n:]]). *)
Fixpoint drop (n : nat) (s : string) : string :=
  match n, s with
  | O, _ => s
  | S _, EmptyString => EmptyString
  | S n', String _ s' => drop n' s'
  end.

(** The first [n] characters of [s] ([s[:n]]). *)
Fixpoint take (n : nat) (s : string) : string :=
  match n, s with
  | O, _ => EmptyString
  | S _, EmptyString => EmptyString
  | S n', String x s' => String x (take n' s')
  end.

(** [s] without its last [n] characters. *)
Definition drop_last (n : nat) (s : string) : string :=
  take (String.length s - n) s.

(** What follows the first occurrence of [p] in [s], if there is one. *)
Fixpoint find_after (p s : string) : option string :=
  if starts_with p s then Some (drop (String.length p) s)
  else match s with
       | EmptyString => None
       | String _ s' => find_after p s'
       end.

(** The text of [s] before the first occurrence of the character [c]. *)
Fixpoint take_until (c : ascii) (s : string) : string :=
  match s with
  | EmptyString => EmptyString
  | String x s' => if Ascii.eqb x c then EmptyString else String x (take_until c s')
  end.

(** [p] and [t] disagree at a position that both of them have: no
    extension of [t] starts with [p]. *)
Fixpoint clash (p t : string) : bool :=
  match p, t with
  | String a p', String b t' => if Ascii.eqb a b then clash p' t' else true
  | _, _ => false
  end.

(** Whether [p] starts at a position of the chunk [a] is decided inside
    [a], whatever text follows the chunk. *)
Fixpoint settled (p a : string) : bool :=
  match a with
  | EmptyString => true
  | String _ a' => (clash p a || starts_with p a) && settled p a'
  end.

End Str.

(** ** The template pieces *)

(** The double-quote and the line-feed characters of the template. *)
Definition dq : string := String (ascii_of_nat 34) EmptyString.
Definition nl : string := String (ascii_of_nat 10) EmptyString.

(** An attribute value between double quotes. *)
Definition quoted (v : string) : string := dq ++ v ++ dq.

(** Python's [str(n)], which is what [{n}] inserts in an f-string: decimal
    digits, no leading zero, a leading [-] for a negative number. *)
Definition str (n : Z) : string := NilZero.string_of_int (Z.to_int n).

(** The first f-string of [create_svg_icon], given the value [half] of its
    replacement field [size//2]: the opening tag, the background rectangle
    and the label, each line ended by a line feed. *)
Definition svg_base_of (size half : Z) : string :=
  "<svg width=" ++ quoted (str size) ++ " height=" ++ quoted (str size)
    ++ " xmlns=" ++ quoted "http://www.w3.org/2000/svg" ++ ">" ++ nl ++
  "  <rect width=" ++ quoted (str size) ++ " height=" ++ quoted (str size)
    ++ " fill=" ++ quoted "#5436DA" ++ "/>" ++ nl ++
  "  <text x=" ++ quoted "50%" ++ " y=" ++ quoted "50%"
    ++ " font-family=" ++ quoted "Arial, sans-serif"
    ++ " font-size=" ++ quoted (str half)
    ++ " font-weight=" ++ quoted "bold" ++ " fill=" ++ quoted "white"
    ++ " text-anchor=" ++ quoted "middle"
    ++ " dominant-baseline=" ++ quoted "central" ++ ">RL4</text>" ++ nl.

(** The same with [size//2] computed: the divisor is the literal 2, and
    Python's floor division by a positive number is [Z.div]. *)
Definition svg_base (size : Z) : string := svg_base_of size (size / 2).

(** The second f-string, appended under the [if]: the snapshot badge. *)
Definition svg_snapshot (size : Z) : string :=
  "  <rect x=" ++ quoted (str (size - 40)) ++ " y=" ++ quoted (str (size - 40))
    ++ " width=" ++ quoted "32" ++ " height=" ++ quoted "32"
    ++ " fill=" ++ quoted "none" ++ " stroke=" ++ quoted "white"
    ++ " stroke-width=" ++ quoted "2" ++ "/>" ++ nl ++
  "  <line x1=" ++ quoted (str (size - 36)) ++ " y1=" ++ quoted (str (size - 30))
    ++ " x2=" ++ quoted (str (size - 8)) ++ " y2=" ++ quoted (str (size - 30))
    ++ " stroke=" ++ quoted "white" ++ " stroke-width=" ++ quoted "1" ++ "/>" ++ nl ++
  "  <line x1=" ++ quoted (str (size - 36)) ++ " y1=" ++ quoted (str (size - 24))
    ++ " x2=" ++ quoted (str (size - 8)) ++ " y2=" ++ quoted (str (size - 24))
    ++ " stroke=" ++ quoted "white" ++ " stroke-width=" ++ quoted "1" ++ "/>" ++ nl ++
  "  <line x1=" ++ quoted (str (size - 36)) ++ " y1=" ++ quoted (str (size - 18))
    ++ " x2=" ++ quoted (str (size - 8)) ++ " y2=" ++ quoted (str (size - 18))
    ++ " stroke=" ++ quoted "white" ++ " stroke-width=" ++ quoted "1" ++ "/>" ++ nl ++
  "  <circle cx=" ++ quoted (str (size - 24)) ++ " cy=" ++ quoted (str (size - 52))
    ++ " r=" ++ quoted "8" ++ " fill=" ++ quoted "none"
    ++ " stroke=" ++ quoted "white" ++ " stroke-width=" ++ quoted "2" ++ "/>" ++ nl ++
  "  <polygon points="
    ++ quoted (str (size - 24) ++ "," ++ str (size - 60) ++ " "
               ++ str (size - 28) ++ "," ++ str (size - 56) ++ " "
               ++ str (size - 20) ++ "," ++ str (size - 56))
    ++ " fill=" ++ quoted "white" ++ "/>" ++ nl.

(** [create_svg_icon(size, add_snapshot=False)]: the local [svg] starts as
    the first f-string, gets the badge appended when [add_snapshot and
    size >= 128], then the closing tag. *)
Definition create_svg_icon (size : Z) (add_snapshot : bool) : string :=
  let svg := svg_base size in
  let svg := if add_snapshot && (size >=? 128)
             then svg ++ svg_snapshot size else svg in
  svg ++ "</svg>".

(** ** Reading the markup back *)

Module Xml.
Import Str.

(** The tags of a document, in order: for every [<], the text between it and
    the next [>]. *)
Fixpoint tags (s : string) : list string :=
  match s with
  | EmptyString => []
  | String c s' =>
      if Ascii.eqb c "<" then take_until ">" s' :: tags s' else tags s'
  end.

(** The tags that begin inside the chunk [a] of a document in which the
    text [b] follows the chunk. *)
Fixpoint tags_in (a b : string) : list string :=
  match a with
  | EmptyString => []
  | String c a' =>
      if Ascii.eqb c "<"
      then (if mem ">" a' then take_until ">" a' else a' ++ take_until ">" b)
             :: tags_in a' b
      else tags_in a' b
  end.

(** The value of the attribute [name]: what stands between the quotes after
    the first [ name=] followed by a double quote. *)
Definition attr_value (name s : string) : option string :=
  option_map (take_until (ascii_of_nat 34)) (find_after (" " ++ name ++ "=" ++ dq) s).

(** The element name of a tag. *)
Definition tag_name (t : string) : string := take_until " " t.

(** The tags of the list that are elements called [name]. *)
Definition named (name : string) (ts : list string) : list string :=
  filter (fun t => String.eqb (tag_name t) name) ts.

(** Attributes written out: each one after a space, its value quoted. *)
Definition attrs_text (attrs : list (string * string)) : string :=
  fold_right (fun kv rest => " " ++ fst kv ++ "=" ++ quoted (snd kv) ++ rest)
             EmptyString attrs.

(** The text of an opening tag and of a self-closing element. *)
Definition open_tag (name : string) (attrs : list (string * string)) : string :=
  name ++ attrs_text attrs.

Definition elem (name : string) (attrs : list (string * string)) : string :=
  open_tag name attrs ++ "/".

(** The [font-size] attribute of the first [text] element of a document. *)
Definition text_font_size (doc : string) : option string :=
  match named "text" (tags doc) with
  | t :: _ => attr_value "font-size" t
  | [] => None
  end.


End Xml.

(** The two f-strings as lists of tags: the elements each of them writes,
    with their attributes in the order of the template. *)
Definition base_tags (size : Z) : list string :=
  [ Xml.open_tag "svg" [("width", str size); ("height", str size);
                        ("xmlns", "http://www.w3.org/2000/svg")];
    Xml.elem "rect" [("width", str size); ("height", str size);
                     ("fill", "#5436DA")];
    Xml.open_tag "text" [("x", "50%"); ("y", "50%");
                         ("font-family", "Arial, sans-serif");
                         ("font-size", str (size / 2)); ("font-weight", "bold");
                         ("fill", "white"); ("text-anchor", "middle");
                         ("dominant-baseline", "central")];
    "/text" ].

Definition snapshot_line (size dy : Z) : string :=
  Xml.elem "line" [("x1", str (size - 36)); ("y1", str (size - dy));
                   ("x2", str (size - 8)); ("y2", str (size - dy));
                   ("stroke", "white"); ("stroke-width", "1")].

Definition snapshot_tags (size : Z) : list string :=
  [ Xml.elem "rect" [("x", str (size - 40)); ("y", str (size - 40));
                     ("width", "32"); ("height", "32"); ("fill", "none");
                     ("stroke", "white"); ("stroke-width", "2")];
    snapshot_line size 30;
    snapshot_line size 24;
    snapshot_line size 18;
    Xml.elem "circle" [("cx", str (size - 24)); ("cy", str (size - 52));
                       ("r", "8"); ("fill", "none");
                       ("stroke", "white"); ("stroke-width", "2")];
    Xml.elem "polygon"
      [("points", str (size - 24) ++ "," ++ str (size - 60) ++ " "
                  ++ str (size - 28) ++ "," ++ str (size - 56) ++ " "
                  ++ str (size - 20) ++ "," ++ str (size - 56));
       ("fill", "white")] ].

(** ** The call in the interpreter

    The same function as a computation of the interpreter: a step either
    raises an exception or returns a value, in a state it may read and
    change.  [create_svg_icon] divides by the literal 2 and converts
    integers to text; it has no other operation that can raise, and none
    that writes. *)

Module Script.

Inductive exn : Type := ZeroDivisionError | ValueError.

(** The state a call runs in: the interpreter's limit on the number of
    digits of an integer converted to text ([sys.get_int_max_str_digits()]:
    4300 unless changed, 0 for no limit), and everything else the
    interpreter and the system hold. *)
Record world (R : Type) : Type := World {
  max_str_digits : nat;
  rest : R
}.
Arguments World {R} _ _.
Arguments max_str_digits {R} _.
Arguments rest {R} _.

Definition Py (R A : Type) : Type := world R -> (exn + A) * world R.

Definition ret {R A : Type} (a : A) : Py R A := fun w => (inr a, w).

Definition raise {R A : Type} (e : exn) : Py R A := fun w => (inl e, w).

Definition bind {R A B : Type} (m : Py R A) (k : A -> Py R B) : Py R B :=
  fun w => match m w with
           | (inr a, w') => k a w'
           | (inl e, w') => (inl e, w')
           end.

Notation "x <- m ;; k" := (bind m (fun x => k))
  (at level 61, m at next level, right associativity).
Notation "m ;; k" := (bind m (fun _ => k))
  (at level 61, right associativity).

(** [a // b] *)
Definition floordiv {R : Type} (a b : Z) : Py R Z :=
  if b =? 0 then raise ZeroDivisionError else ret (a / b).

(** The number of decimal digits of [n], its sign apart. *)
Definition digits (n : Z) : nat := String.length (str (Z.abs n)).

(** Texts of at most this length are never checked against the limit
    ([sys.int_info.str_digits_check_threshold]). *)
Definition str_digits_check_threshold : nat := 640.

(** The conversion of [n] to text is refused under the limit [limit]. *)
Definition over_limit (limit : nat) (n : Z) : bool :=
  (str_digits_check_threshold <? String.length (str n))%nat
  && (0 <? limit)%nat && (limit <? digits n)%nat.

(** A replacement field [{n}] of an f-string: the integer is converted to
    text, which raises [ValueError] when it has more digits than the limit
    allows. *)
Definition field {R : Type} (n : Z) : Py R string :=
  fun w => if over_limit (max_str_digits w) n
           then (inl ValueError, w) else (inr (str n), w).

(** The replacement fields of an f-string, converted from left to right. *)
Fixpoint fields {R : Type} (ns : list Z) : Py R unit :=
  match ns with
  | [] => ret tt
  | n :: ns' => field n ;; fields ns'
  end.

(** The values of the replacement fields of the badge, in the order of the
    template. *)
Definition snapshot_fields (size : Z) : list Z :=
  [ size - 40; size - 40;
    size - 36; size - 30; size - 8; size - 30;
    size - 36; size - 24; size - 8; size - 24;
    size - 36; size - 18; size - 8; size - 18;
    size - 24; size - 52;
    size - 24; size - 60; size - 28; size - 56; size - 20; size - 56 ].

(** [create_svg_icon(size, add_snapshot)] as the interpreter runs it: the
    fields of the first f-string are converted in order, [size//2] being
    computed when its field is reached; under the guard the fields of the
    second one; the text is the one [svg_base_of] and [svg_snapshot]
    spell. *)
Definition create_svg_icon {R : Type} (size : Z) (add_snapshot : bool)
  : Py R string :=
  svg <- (fields [size; size; size; size] ;;
          half <- floordiv size 2 ;;
          fields [half] ;;
          ret (svg_base_of size half)) ;;
  svg <- (if add_snapshot && (size >=? 128)
          then fields (snapshot_fields size) ;; ret (svg ++ svg_snapshot size)
          else ret svg) ;;
  ret (svg ++ "</svg>").


End Script.

(** ** The unused header builder

    [create_simple_png] is never called by the script.  It returns the PNG
    signature followed by one header chunk; byte strings are lists of
    bytes, and [struct.pack] raises [struct.error] on a number that does not
    fit its format code. *)

Module Png.

(** [struct.error] *)
Inductive struct_error : Type := StructError.

Definition result (A : Type) : Type := (struct_error + A)%type.

Definition bind {A B : Type} (m : result A) (k : A -> result B) : result B :=
  match m with
  | inr a => k a
  | inl e => inl e
  end.

Notation "x <- m ;; k" := (bind m (fun x => k))
  (at level 61, m at next level, right associativity).

(** The byte whose value is [z] modulo 256. *)
Definition byte_of (z : Z) : byte :=
  match Byte.of_N (Z.to_N (z mod 256)) with
  | Some b => b
  | None => x00
  end.

(** The format codes [I] and [B] under the byte order [>]: an unsigned
    integer on four bytes, most significant first, and one on a single byte;
    a number outside the range of the code raises [struct.error]. *)
Definition be4 (x : Z) : list byte :=
  [byte_of (Z.shiftr x 24); byte_of (Z.shiftr x 16);
   byte_of (Z.shiftr x 8); byte_of x].

Definition pack_I (x : Z) : result (list byte) :=
  if (0 <=? x) && (x <=? 4294967295) then inr (be4 x) else inl StructError.

Definition pack_B (x : Z) : result (list byte) :=
  if (0 <=? x) && (x <=? 255) then inr [byte_of x] else inl StructError.

(** [struct.pack('>IIBBBBB', a, b, c, d, e, f, g)] *)
Definition pack_IIBBBBB (a b c d e f g : Z) : result (list byte) :=
  pa <- pack_I a ;; pb <- pack_I b ;;
  pc <- pack_B c ;; pd <- pack_B d ;; pe <- pack_B e ;;
  pf <- pack_B f ;; pg <- pack_B g ;;
  inr (pa ++ pb ++ pc ++ pd ++ pe ++ pf ++ pg)%list.

(** [b'\x89PNG\r\n\x1a\n'] and [b'IHDR'] *)
Definition signature : list byte := [x89; x50; x4e; x47; x0d; x0a; x1a; x0a].
Definition IHDR : list byte := [x49; x48; x44; x52].

(** [create_simple_png(width, height, bg_color, text_color)]: the signature
    followed by the header chunk with its fixed checksum; the two colours
    are not used. *)
Definition create_simple_png (width height : Z) (bg_color text_color : Z * Z * Z)
  : result (list byte) :=
  let png := signature in
  ihdr_data <- pack_IIBBBBB width height 8 2 0 0 0 ;;
  let ihdr_crc := 0x9A768C92 in
  len <- pack_I 13 ;;
  crc <- pack_I ihdr_crc ;;
  let ihdr_chunk := (len ++ IHDR ++ ihdr_data ++ crc)%list in
  inr (png ++ ihdr_chunk)%list.

(** The number a byte string stands for, most significant byte first
    ([int.from_bytes(bs, 'big')]). *)
Definition be_value (bs : list byte) : Z :=
  fold_left (fun acc b => acc * 256 + Z.of_N (Byte.to_N b)) bs 0.

End Png.

(** ** The files of the loop *)

Module Driver.

(** [f'icon{size}.svg'], the name the loop gives to the file of a size. *)
Definition icon_path (size : Z) : string := "icon" ++ str size ++ ".svg".

End Driver.

Module Read.
Import Str Xml.

(** A decimal numeral read as an integer ([int(s)] on the texts that
    [str] produces); [None] for a text that is not one. *)
Definition read_int (s : string) : option Z :=
  option_map Z.of_int (NilZero.int_of_string s).

(** An attribute of a tag read as an integer. *)
Definition attr_int (name t : string) : option Z :=
  match attr_value name t with
  | Some v => read_int v
  | None => None
  end.

(** Width and height of a document, from its first tag. *)
Definition svg_size (doc : string) : option (Z * Z) :=
  match tags doc with
  | t :: _ =>
      match attr_int "width" t, attr_int "height" t with
      | Some w, Some h => Some (w, h)
      | _, _ => None
      end
  | [] => None
  end.

(** The coordinates of a tag that are numbers (not percentages). *)
Definition coordinate_names : list string :=
  ["x"; "y"; "x1"; "y1"; "x2"; "y2"; "cx"; "cy"].

Definition numeric_coords (t : string) : list Z :=
  flat_map (fun name => match attr_int name t with
                        | Some v => [v]
                        | None => []
                        end) coordinate_names.

(** Every character of [s] satisfies [P]. *)
Fixpoint all_chars (P : ascii -> bool) (s : string) : bool :=
  match s with
  | EmptyString => true
  | String c s' => P c && all_chars P s'
  end.

(** A printable ASCII character or a line feed. *)
Definition plain_char (c : ascii) : bool :=
  let n := N_of_ascii c in
  (n =? 10)%N || ((32 <=? n)%N && (n <=? 126)%N).

End Read.

(** ** Facts about the text primitives *)

Module StrFacts.
Import Str.

Lemma app_assoc_s (a b c : string) : (a ++ b) ++ c = a ++ b ++ c.
Proof. induction a as [|x a IH]; simpl; [reflexivity | now rewrite IH]. Qed.

Lemma app_nil_r_s (a : string) : a ++ EmptyString = a.
Proof. induction a as [|x a IH]; simpl; [reflexivity | now rewrite IH]. Qed.

Lemma length_app (a b : string) :
  String.length (a ++ b) = (String.length a + String.length b)%nat.
Proof. induction a as [|x a IH]; simpl; [reflexivity | now rewrite IH]. Qed.

(** *** Prefixes and suffixes *)

Lemma starts_with_app (p r : string) : starts_with p (p ++ r) = true.
Proof.
  induction p as [|x p IH]; simpl; [reflexivity|].
  now rewrite Ascii.eqb_refl, IH.
Qed.

Lemma starts_with_extend (p t b : string) :
  starts_with p t = true -> starts_with p (t ++ b) = true.
Proof.
  revert t; induction p as [|x p IH]; intros [|y t]; simpl; try easy.
  intros H; apply andb_true_iff in H as [Hxy Hp].
  now rewrite Hxy, (IH _ Hp).
Qed.

Lemma starts_with_split (p s : string) :
  starts_with p s = true -> exists r, s = p ++ r.
Proof.
  revert s; induction p as [|x p IH]; intros s; simpl.
  - intros _; now exists s.
  - destruct s as [|y s]; [discriminate|].
    intros H; apply andb_true_iff in H as [Hxy Hp].
    apply Ascii.eqb_eq in Hxy; subst y.
    destruct (IH _ Hp) as [r ->]; now exists r.
Qed.

Lemma clash_extend (p t b : string) :
  clash p t = true -> starts_with p (t ++ b) = false.
Proof.
  revert t; induction p as [|x p IH]; intros [|y t]; simpl; try easy.
  destruct (Ascii.eqb x y); simpl; [apply IH | reflexivity].
Qed.

Lemma clash_here (p t : string) : clash p t = true -> starts_with p t = false.
Proof.
  intros H; rewrite <- (app_nil_r_s t); now apply clash_extend.
Qed.

(** Inside a settled chunk the prefix test does not look at what follows. *)
Lemma settled_head (p : string) (x : ascii) (a b : string) :
  (clash p (String x a) || starts_with p (String x a)) = true ->
  starts_with p (String x a ++ b) = starts_with p (String x a).
Proof.
  intros H; apply orb_true_iff in H as [H|H].
  - now rewrite (clash_extend _ _ b H), (clash_here _ _ H).
  - now rewrite (starts_with_extend _ _ b H), H.
Qed.

Lemma ends_with_app (a p : string) : ends_with p (a ++ p) = true.
Proof.
  induction a as [|x a IH]; simpl.
  - destruct p; simpl; rewrite ?Ascii.eqb_refl, ?String.eqb_refl; reflexivity.
  - rewrite IH; apply orb_true_r.
Qed.

Lemma ends_with_split (p s : string) :
  ends_with p s = true -> exists a, s = a ++ p.
Proof.
  induction s as [|x s IH]; simpl; intros H.
  - rewrite orb_false_r in H; apply String.eqb_eq in H; subst p.
    now exists EmptyString.
  - apply orb_true_iff in H as [H|H].
    + apply String.eqb_eq in H; subst p; now exists EmptyString.
    + destruct (IH H) as [a ->]; now exists (String x a).
Qed.

(** *** Occurrence of a text *)

Lemma contains_here (p b : string) : contains p (p ++ b) = true.
Proof.
  destruct (p ++ b) eqn:E; simpl;
    rewrite <- E, starts_with_app; reflexivity.
Qed.

Lemma contains_app_r (p a b : string) :
  contains p b = true -> contains p (a ++ b) = true.
Proof.
  intros H; induction a as [|x a IH]; simpl; [exact H|].
  rewrite IH; apply orb_true_r.
Qed.

Lemma contains_intro (p a b : string) : contains p (a ++ p ++ b) = true.
Proof. apply contains_app_r, contains_here. Qed.

(** [contains] is the usual notion of a substring. *)
Lemma contains_spec (p s : string) :
  contains p s = true <-> exists a b, s = a ++ p ++ b.
Proof.
  split.
  - induction s as [|x s IH]; simpl; intros H.
    + rewrite orb_false_r in H.
      destruct (starts_with_split _ _ H) as [r Hr].
      now exists EmptyString, r.
    + apply orb_true_iff in H as [H|H].
      * destruct (starts_with_split _ _ H) as [r Hr].
        now exists EmptyString, r.
      * destruct (IH H) as (a & b & ->). now exists (String x a), b.
  - intros (a & b & ->); apply contains_intro.
Qed.

Lemma mem_app (c : ascii) (a b : string) : mem c (a ++ b) = mem c a || mem c b.
Proof.
  induction a as [|x a IH]; simpl; [reflexivity|].
  now rewrite IH, orb_assoc.
Qed.

Lemma starts_with_mem (c : ascii) (p s : string) :
  starts_with p s = true -> mem c p = true -> mem c s = true.
Proof.
  intros H Hc; destruct (starts_with_split _ _ H) as [r ->].
  now rewrite mem_app, Hc.
Qed.

(** A text that has a character which [s] lacks does not occur in [s]. *)
Lemma contains_mem (c : ascii) (p s : string) :
  mem c p = true -> mem c s = false -> contains p s = false.
Proof.
  intros Hp Hs; destruct (contains p s) eqn:E; [|reflexivity].
  apply contains_spec in E as (a & b & ->).
  rewrite !mem_app, Hp, orb_true_r in Hs; discriminate.
Qed.

Lemma occurrences_app (p a b : string) :
  settled p a = true ->
  occurrences p (a ++ b) = (occurrences p a + occurrences p b)%nat.
Proof.
  induction a as [|x a IH]; intros H; [reflexivity|].
  cbn [settled] in H; apply andb_true_iff in H as [Hx Ha].
  change (occurrences p (String x a ++ b))
    with ((if starts_with p (String x a ++ b) then 1 else 0)
          + occurrences p (a ++ b))%nat.
  rewrite (settled_head _ _ _ b Hx), (IH Ha).
  cbn [occurrences]; lia.
Qed.

(** A chunk without the first character of [p] is settled and holds no
    occurrence of [p]. *)
Lemma clash_head (c x : ascii) (p a : string) :
  Ascii.eqb x c = false -> clash (String c p) (String x a) = true.
Proof. intros H; simpl; now rewrite Ascii.eqb_sym, H. Qed.

Lemma settled_no_head (c : ascii) (p a : string) :
  mem c a = false -> settled (String c p) a = true.
Proof.
  induction a as [|x a IH]; [reflexivity|].
  cbn [mem settled]; intros H; apply orb_false_iff in H as [Hx Ha].
  now rewrite (clash_head _ _ _ _ Hx), (IH Ha).
Qed.

Lemma occurrences_no_head (c : ascii) (p a : string) :
  mem c a = false -> occurrences (String c p) a = 0%nat.
Proof.
  induction a as [|x a IH]; [reflexivity|].
  cbn [mem occurrences]; intros H; apply orb_false_iff in H as [Hx Ha].
  now rewrite (clash_here _ _ (clash_head _ _ p a Hx)), (IH Ha).
Qed.

(** *** Cutting a text *)

Lemma take_until_app (c : ascii) (a b : string) :
  take_until c (a ++ b) = if mem c a then take_until c a else a ++ take_until c b.
Proof.
  induction a as [|x a IH]; [reflexivity|].
  cbn [append take_until mem].
  destruct (Ascii.eqb x c); cbn [orb]; [reflexivity|].
  rewrite IH; destruct (mem c a); reflexivity.
Qed.

Lemma take_until_skip (c : ascii) (a b : string) :
  mem c a = false -> take_until c (a ++ b) = a ++ take_until c b.
Proof. intros H; now rewrite take_until_app, H. Qed.

Lemma take_until_stop (c : ascii) (a b : string) :
  mem c a = true -> take_until c (a ++ b) = take_until c a.
Proof. intros H; now rewrite take_until_app, H. Qed.

Lemma take_app (a b : string) : take (String.length a) (a ++ b) = a.
Proof. induction a as [|x a IH]; simpl; [now destruct b | now rewrite IH]. Qed.

Lemma drop_app (a b : string) : drop (String.length a) (a ++ b) = b.
Proof. induction a as [|x a IH]; simpl; [reflexivity | exact IH]. Qed.

Lemma drop_last_app (a b : string) : drop_last (String.length b) (a ++ b) = a.
Proof.
  unfold drop_last; rewrite length_app.
  replace (String.length a + String.length b - String.length b)%nat
    with (String.length a) by lia.
  apply take_app.
Qed.

Lemma drop_extend (p t b : string) :
  starts_with p t = true ->
  drop (String.length p) (t ++ b) = drop (String.length p) t ++ b.
Proof.
  intros H; destruct (starts_with_split _ _ H) as [r ->].
  now rewrite app_assoc_s, !drop_app.
Qed.

Lemma find_after_here (p r : string) : find_after p (p ++ r) = Some r.
Proof.
  destruct (p ++ r) eqn:E; cbn [find_after]; rewrite <- E;
    now rewrite starts_with_app, drop_app.
Qed.

(** Across a settled chunk, the search either ends in the chunk or goes on
    after it. *)
Lemma find_after_app (p a b : string) :
  p <> EmptyString -> settled p a = true ->
  find_after p (a ++ b) =
  match find_after p a with
  | Some r => Some (r ++ b)
  | None => find_after p b
  end.
Proof.
  intros Hp; induction a as [|x a IH]; intros H.
  - destruct p; [congruence | reflexivity].
  - cbn [settled] in H; apply andb_true_iff in H as [Hx Ha].
    change (find_after p (String x a ++ b))
      with (if starts_with p (String x a ++ b)
            then Some (drop (String.length p) (String x a ++ b))
            else find_after p (a ++ b)).
    rewrite (settled_head _ _ _ b Hx); cbn [find_after].
    destruct (starts_with p (String x a)) eqn:E.
    + now rewrite (drop_extend _ _ b E).
    + exact (IH Ha).
Qed.

(** *** More on prefixes, suffixes and searches *)

Lemma starts_with_cancel (a p s : string) :
  starts_with (a ++ p) (a ++ s) = starts_with p s.
Proof.
  induction a as [|x a IH]; [reflexivity|].
  cbn [append starts_with]; now rewrite Ascii.eqb_refl, IH.
Qed.

Lemma starts_with_contains (p s : string) :
  starts_with p s = true -> contains p s = true.
Proof. intros H; destruct s; cbn [contains]; now rewrite H. Qed.



Lemma find_after_no_head (c : ascii) (p a : string) :
  mem c a = false -> find_after (String c p) a = None.
Proof.
  induction a as [|x a IH]; [reflexivity|].
  cbn [mem]; intros H; apply orb_false_iff in H as [Hx Ha].
  change (find_after (String c p) (String x a))
    with (if starts_with (String c p) (String x a)
          then Some (drop (String.length (String c p)) (String x a))
          else find_after (String c p) a).
  now rewrite (clash_here _ _ (clash_head _ _ p a Hx)), (IH Ha).
Qed.

End StrFacts.

(** ** Facts about the markup reader *)

Module XmlFacts.
Import Str Xml StrFacts.

Lemma tags_app (a b : string) : tags (a ++ b) = (tags_in a b ++ tags b)%list.
Proof.
  induction a as [|x a IH]; [reflexivity|].
  cbn [append tags tags_in]; rewrite IH, take_until_app.
  destruct (Ascii.eqb x "<"); reflexivity.
Qed.

Lemma tags_in_none (a b : string) : mem "<" a = false -> tags_in a b = [].
Proof.
  induction a as [|x a IH]; [reflexivity|].
  cbn [mem tags_in]; intros H; apply orb_false_iff in H as [Hx Ha].
  rewrite Hx; exact (IH Ha).
Qed.

Lemma tags_skip (a b : string) : mem "<" a = false -> tags (a ++ b) = tags b.
Proof. intros H; now rewrite tags_app, (tags_in_none _ _ H). Qed.

Lemma attrs_text_cons (kv : string * string) (attrs : list (string * string)) :
  attrs_text (kv :: attrs) =
  " " ++ fst kv ++ "=" ++ dq ++ snd kv ++ dq ++ attrs_text attrs.
Proof. unfold attrs_text, quoted; cbn [fold_right]; now rewrite !app_assoc_s. Qed.

Lemma tag_name_open_tag (n : string) (attrs : list (string * string)) :
  mem " " n = false -> attrs <> [] -> tag_name (open_tag n attrs) = n.
Proof.
  intros Hn Ha; destruct attrs as [|kv attrs]; [congruence|].
  unfold tag_name, open_tag; rewrite attrs_text_cons.
  rewrite (take_until_skip _ _ _ Hn).
  cbn [append take_until Ascii.eqb Bool.eqb]. apply app_nil_r_s.
Qed.

Lemma tag_name_elem (n : string) (attrs : list (string * string)) :
  mem " " n = false -> attrs <> [] -> tag_name (elem n attrs) = n.
Proof.
  intros Hn Ha; destruct attrs as [|kv attrs]; [congruence|].
  unfold tag_name, elem, open_tag; rewrite attrs_text_cons, app_assoc_s.
  rewrite (take_until_skip _ _ _ Hn).
  cbn [append take_until Ascii.eqb Bool.eqb]. apply app_nil_r_s.
Qed.






End XmlFacts.

(** ** Facts about the decimal rendering *)

Module StrZ.
Import Str StrFacts.

Lemma uint_chars (c : ascii) (d : Decimal.uint) :
  mem c "0123456789" = false -> mem c (NilEmpty.string_of_uint d) = false.
Proof.
  intros H; cbn [mem] in H; rewrite !orb_false_iff in H.
  induction d; cbn [NilEmpty.string_of_uint mem]; try reflexivity;
    rewrite IHd, orb_false_r; tauto.
Qed.

(** The rendering of an integer has digits and the minus sign only. *)
Lemma str_chars (c : ascii) (n : Z) :
  mem c "-0123456789" = false -> mem c (str n) = false.
Proof.
  intros H; cbn [mem] in H; apply orb_false_iff in H as [Hm Hd].
  assert (U : forall d, mem c (NilZero.string_of_uint d) = false).
  { intros d; destruct d; try (apply uint_chars; exact Hd).
    cbn [NilZero.string_of_uint mem] in *; rewrite !orb_false_iff in Hd.
    rewrite orb_false_r; tauto. }
  unfold str; destruct (Z.to_int n); cbn [NilZero.string_of_int mem].
  - apply U.
  - now rewrite Hm, U.
Qed.

(** A text that does not start with a digit or a minus sign does not start
    inside the rendering of an integer. *)
Lemma settled_str (c : ascii) (p : string) (n : Z) :
  mem c "-0123456789" = false -> settled (String c p) (str n) = true.
Proof. intros H; apply settled_no_head, str_chars, H. Qed.

Lemma occurrences_str (c : ascii) (p : string) (n : Z) :
  mem c "-0123456789" = false -> occurrences (String c p) (str n) = 0%nat.
Proof. intros H; apply occurrences_no_head, str_chars, H. Qed.

Lemma find_after_str (c : ascii) (p : string) (n : Z) :
  mem c "-0123456789" = false -> find_after (String c p) (str n) = None.
Proof. intros H; apply find_after_no_head, str_chars, H. Qed.

Example str_128 : str 128 = "128".
Proof. reflexivity. Qed.

Example str_zero : str 0 = "0".
Proof. reflexivity. Qed.

Example str_negative : str (-5) = "-5".
Proof. reflexivity. Qed.

(** Reading the rendering back as a decimal numeral gives the integer. *)
Lemma str_inverse (n : Z) :
  option_map Z.of_int (NilZero.int_of_string (str n)) = Some n.
Proof.
  unfold str; rewrite NilZero.isi.
  - cbn [option_map]; now rewrite DecimalZ.of_to.
  - destruct n; cbn [Z.to_int]; try discriminate.
    intros [= H]; exact (DecimalPos.Unsigned.to_uint_nonnil _ H).
  - destruct n; cbn [Z.to_int]; try discriminate.
    intros [= H]; exact (DecimalPos.Unsigned.to_uint_nonnil _ H).
Qed.

End StrZ.

(** ** Walking through the chunks of the template *)

Import Str StrFacts Xml XmlFacts StrZ.

Ltac closed_text a := lazymatch a with context [str] => fail | _ => idtac end.

(** Adjacent literal chunks become one literal. *)
Ltac merge :=
  repeat match goal with
         | |- context [?a ++ ?b ++ ?r] =>
             closed_text a; closed_text b;
             let ab := eval vm_compute in (a ++ b) in
             change (a ++ b ++ r) with (ab ++ r)
         | |- context [?a ++ ?b] =>
             closed_text a; closed_text b;
             let ab := eval vm_compute in (a ++ b) in
             change (a ++ b) with ab
         end.

(** The document as a right-nested sequence of chunks. *)
Ltac chunks :=
  unfold create_svg_icon, svg_base, svg_base_of, svg_snapshot, quoted;
  cbv zeta; rewrite ?app_assoc_s.

(** The expected tags as right-nested sequences of chunks. *)
Ltac spell :=
  unfold base_tags, snapshot_tags, snapshot_line, elem, open_tag, attrs_text, quoted;
  cbn [fold_right fst snd app];
  rewrite ?app_assoc_s, ?app_nil_r_s.

Ltac lacks := first [ apply str_chars; reflexivity | vm_compute; reflexivity ].

Ltac settle := first [ apply settled_str; reflexivity | vm_compute; reflexivity ].

Ltac until_step :=
  repeat (rewrite take_until_skip by lacks);
  try (rewrite take_until_stop by (vm_compute; reflexivity);
       match goal with
       | |- context [take_until ?c ?a] =>
           closed_text a;
           let v := eval vm_compute in (take_until c a) in
           change (take_until c a) with v
       end).

Ltac tags_step :=
  first
    [ rewrite tags_skip by lacks
    | rewrite tags_app;
      cbn [tags_in mem take_until Ascii.eqb Bool.eqb orb andb app];
      until_step ].

Ltac find_step :=
  rewrite find_after_app by (first [ discriminate | settle ]);
  first
    [ rewrite find_after_str by reflexivity
    | match goal with
      | |- context [find_after ?p ?a] =>
          closed_text a;
          let v := eval vm_compute in (find_after p a) in
          change (find_after p a) with v
      end ];
  cbv iota beta.

(** ** The icon *)

Module IconFacts.

Lemma snapshot_guard_false (size : Z) (add_snapshot : bool) :
  add_snapshot && (size >=? 128) = false ->
  create_svg_icon size add_snapshot = svg_base size ++ "</svg>".
Proof. intros E; unfold create_svg_icon; now rewrite E. Qed.

Lemma snapshot_guard_true (size : Z) (add_snapshot : bool) :
  add_snapshot && (size >=? 128) = true ->
  create_svg_icon size add_snapshot =
  svg_base size ++ svg_snapshot size ++ "</svg>".
Proof.
  intros E; unfold create_svg_icon; rewrite E; cbv zeta; apply app_assoc_s.
Qed.

Lemma guard_iff (size : Z) (add_snapshot : bool) :
  add_snapshot && (size >=? 128) = true <-> add_snapshot = true /\ 128 <= size.
Proof. rewrite andb_true_iff, Z.geb_le; tauto. Qed.

(** The tags of the document, for every size and flag. *)
Lemma tags_create_svg_icon (size : Z) (add_snapshot : bool) :
  tags (create_svg_icon size add_snapshot) =
  (base_tags size
     ++ (if add_snapshot && (size >=? 128) then snapshot_tags size else [])
     ++ ["/svg"])%list.
Proof.
  destruct (add_snapshot && (size >=? 128)) eqn:E.
  - rewrite (snapshot_guard_true _ _ E); chunks.
    repeat tags_step; spell; reflexivity.
  - rewrite (snapshot_guard_false _ _ E); chunks.
    repeat tags_step; spell; reflexivity.
Qed.

(** The letter k is in the badge ([stroke]) and nowhere in the rest. *)
Lemma snapshot_has_k (size : Z) : mem "k" (svg_snapshot size) = true.
Proof.
  chunks; rewrite !mem_app, !str_chars by reflexivity; reflexivity.
Qed.

Lemma base_lacks_k (size : Z) : mem "k" (svg_base size ++ "</svg>") = false.
Proof.
  chunks; rewrite !mem_app, !str_chars by reflexivity; reflexivity.
Qed.


(** Degenerate sizes: the guard is off below 128 and the division floors. *)
Example zero_size_tags :
  tags (create_svg_icon 0 true) = (base_tags 0 ++ ["/svg"])%list.
Proof. reflexivity. Qed.

Example negative_size_font :
  text_font_size (create_svg_icon (-5) true) = Some "-3".
Proof. reflexivity. Qed.

End IconFacts.

(** ** The call in the interpreter: digits and outcomes *)

Module ScriptFacts.















End ScriptFacts.

(** ** The claims *)

Import IconFacts ScriptFacts.

(** C1. The output contains the badge text exactly when the flag is set and
    the size is at least 128; below 128 the flag makes no difference. *)
Theorem snapshot_iff_flag_and_size (size : Z) (add_snapshot : bool) :
  contains (svg_snapshot size) (create_svg_icon size add_snapshot)
  = add_snapshot && (size >=? 128)
  /\ (size < 128 -> create_svg_icon size true = create_svg_icon size false)
  /\ create_svg_icon 16 false = create_svg_icon 16 true.
Proof.
  split; [|split; [|reflexivity]].
  - destruct (add_snapshot && (size >=? 128)) eqn:E.
    + rewrite (snapshot_guard_true _ _ E); apply contains_intro.
    + rewrite (snapshot_guard_false _ _ E).
      apply (contains_mem "k"); [apply snapshot_has_k | apply base_lacks_k].
  - intros H.
    assert (E : (size >=? 128) = false) by (rewrite Z.geb_leb; apply Z.leb_gt; lia).
    rewrite (snapshot_guard_false size true) by (now rewrite E).
    now rewrite (snapshot_guard_false size false).
Qed.

Lemma snapshot_iff_flag_and_size_100 :
  create_svg_icon 100 true = create_svg_icon 100 false.
Proof.
  apply (proj1 (proj2 (snapshot_iff_flag_and_size 100 true))); lia.
Defined.

(** C2. At size 128 with the flag set, the tags are those of the plain icon
    followed by exactly the six badge elements (a square outline at offset
    40, three lines from offset 36 to offset 8 at heights 30, 24 and 18, a
    circle at offsets 24 and 52, a triangle through offsets 24/60, 28/56 and
    20/56), white, stroke width 2 for square and circle and 1 for the
    lines; without the flag none of them is there. *)
Theorem snapshot_elements_at_128 :
  tags (create_svg_icon 128 true) =
    (base_tags 128 ++
     [ elem "rect" [("x", str (128 - 40)); ("y", str (128 - 40));
                    ("width", "32"); ("height", "32"); ("fill", "none");
                    ("stroke", "white"); ("stroke-width", "2")];
       elem "line" [("x1", str (128 - 36)); ("y1", str (128 - 30));
                    ("x2", str (128 - 8)); ("y2", str (128 - 30));
                    ("stroke", "white"); ("stroke-width", "1")];
       elem "line" [("x1", str (128 - 36)); ("y1", str (128 - 24));
                    ("x2", str (128 - 8)); ("y2", str (128 - 24));
                    ("stroke", "white"); ("stroke-width", "1")];
       elem "line" [("x1", str (128 - 36)); ("y1", str (128 - 18));
                    ("x2", str (128 - 8)); ("y2", str (128 - 18));
                    ("stroke", "white"); ("stroke-width", "1")];
       elem "circle" [("cx", str (128 - 24)); ("cy", str (128 - 52));
                      ("r", "8"); ("fill", "none");
                      ("stroke", "white"); ("stroke-width", "2")];
       elem "polygon"
         [("points", (str (128 - 24) ++ "," ++ str (128 - 60) ++ " "
                      ++ str (128 - 28) ++ "," ++ str (128 - 56) ++ " "
                      ++ str (128 - 20) ++ "," ++ str (128 - 56))%string);
          ("fill", "white")] ] ++ ["/svg"])%list
  /\ tags (create_svg_icon 128 false) = (base_tags 128 ++ ["/svg"])%list
  /\ (let ts := tags (create_svg_icon 128 true) in
      List.length (filter (fun t => match attr_value "fill" t with
                                    | Some v => String.eqb v "none"
                                    | None => false
                                    end) (named "rect" ts)) = 1%nat
      /\ List.length (named "line" ts) = 3%nat
      /\ List.length (named "circle" ts) = 1%nat
      /\ List.length (named "polygon" ts) = 1%nat)
  /\ (let ts := tags (create_svg_icon 128 false) in
      existsb (fun t => match attr_value "fill" t with
                        | Some v => String.eqb v "none"
                        | None => false
                        end) (named "rect" ts) = false
      /\ named "line" ts = [] /\ named "circle" ts = []
      /\ named "polygon" ts = [])
  /\ contains (svg_snapshot 128) (create_svg_icon 128 false) = false.
Proof. vm_compute; repeat split; reflexivity. Qed.

(** C3. For a positive size the text starts with the opening [svg] tag
    carrying the size, in decimal, as width and height, and ends with the
    closing [svg] tag. *)
Theorem starts_with_svg_ends_with_svg (size : Z) (add_snapshot : bool) :
  0 < size ->
  starts_with ("<svg width=" ++ quoted (str size)
                 ++ " height=" ++ quoted (str size))
              (create_svg_icon size add_snapshot) = true
  /\ ends_with "</svg>" (create_svg_icon size add_snapshot) = true.
Proof.
  intros _; split.
  - destruct (add_snapshot && (size >=? 128)) eqn:E;
      [rewrite (snapshot_guard_true _ _ E) | rewrite (snapshot_guard_false _ _ E)];
      chunks; rewrite !starts_with_cancel; apply starts_with_app.
  - destruct (add_snapshot && (size >=? 128)) eqn:E;
      [rewrite (snapshot_guard_true _ _ E), <- app_assoc_s
      | rewrite (snapshot_guard_false _ _ E)];
      apply ends_with_app.
Qed.

Lemma starts_with_svg_ends_with_svg_48 :
  starts_with ("<svg width=" ++ quoted "48" ++ " height=" ++ quoted "48")
              (create_svg_icon 48 false) = true
  /\ ends_with "</svg>" (create_svg_icon 48 false) = true.
Proof. apply (starts_with_svg_ends_with_svg 48 false); lia. Defined.

(** C4. For a positive size the [font-size] attribute of the [text] element
    is the decimal rendering of the floor of size/2: 24 for 48, 8 for 17. *)
Theorem font_size_is_half (size : Z) (add_snapshot : bool) :
  0 < size ->
  (exists half : Z,
      text_font_size (create_svg_icon size add_snapshot) = Some (str half)
      /\ 2 * half <= size < 2 * half + 2)
  /\ text_font_size (create_svg_icon 48 add_snapshot) = Some "24"
  /\ text_font_size (create_svg_icon 17 add_snapshot) = Some "8".
Proof.
  intros _.
  assert (G : forall n, text_font_size (create_svg_icon n add_snapshot)
                        = Some (str (n / 2))).
  { intros n; unfold text_font_size.
    rewrite tags_create_svg_icon; unfold base_tags, named; cbn [app filter].
    rewrite tag_name_open_tag by (discriminate || reflexivity).
    rewrite tag_name_elem by (discriminate || reflexivity).
    rewrite tag_name_open_tag by (discriminate || reflexivity).
    cbn [String.eqb Ascii.eqb Bool.eqb].
    unfold attr_value; spell; merge; repeat find_step.
    cbn [option_map append]; until_step.
    now rewrite app_nil_r_s. }
  split; [|split].
  - exists (size / 2); split; [apply G|].
    pose proof (Z.div_mod size 2 ltac:(lia)).
    pose proof (Z.mod_pos_bound size 2 ltac:(lia)). lia.
  - apply (G 48).
  - apply (G 17).
Qed.

Lemma font_size_is_half_48 :
  text_font_size (create_svg_icon 48 false) = Some "24".
Proof.
  apply (proj1 (proj2 (font_size_is_half 48 false ltac:(lia)))).
Defined.

(** C5. For a positive size the text RL4 occurs exactly once. *)
Theorem exactly_one_RL4 (size : Z) (add_snapshot : bool) :
  0 < size -> occurrences "RL4" (create_svg_icon size add_snapshot) = 1%nat.
Proof.
  intros _; destruct (add_snapshot && (size >=? 128)) eqn:E;
    [rewrite (snapshot_guard_true _ _ E) | rewrite (snapshot_guard_false _ _ E)];
    chunks; rewrite !occurrences_app by settle;
    rewrite !occurrences_str by reflexivity; reflexivity.
Qed.

Lemma exactly_one_RL4_128 :
  occurrences "RL4" (create_svg_icon 128 true) = 1%nat.
Proof. apply (exactly_one_RL4 128 true); lia. Defined.

(** C6. For a positive size the element after the opening tag is the
    background rectangle: width and height equal to the size, filled with
    #5436DA; its text is part of the output. *)
Theorem background_rect_fills_canvas (size : Z) (add_snapshot : bool) :
  0 < size ->
  nth_error (tags (create_svg_icon size add_snapshot)) 1
  = Some (elem "rect" [("width", str size); ("height", str size);
                       ("fill", "#5436DA")])
  /\ contains ("<rect width=" ++ quoted (str size)
                 ++ " height=" ++ quoted (str size)
                 ++ " fill=" ++ quoted "#5436DA" ++ "/>")
              (create_svg_icon size add_snapshot) = true.
Proof.
  intros _; split.
  - now rewrite tags_create_svg_icon.
  - unfold create_svg_icon; cbv zeta.
    set (tail := if add_snapshot && (size >=? 128) then _ else _).
    assert (B : contains ("<rect width=" ++ quoted (str size)
                            ++ " height=" ++ quoted (str size)
                            ++ " fill=" ++ quoted "#5436DA" ++ "/>")
                         (svg_base size) = true).
    { apply contains_spec.
      exists ("<svg width=" ++ quoted (str size) ++ " height=" ++ quoted (str size)
                ++ " xmlns=" ++ quoted "http://www.w3.org/2000/svg" ++ ">" ++ nl
                ++ "  ").
      exists (nl ++
        "  <text x=" ++ quoted "50%" ++ " y=" ++ quoted "50%"
          ++ " font-family=" ++ quoted "Arial, sans-serif"
          ++ " font-size=" ++ quoted (str (size / 2))
          ++ " font-weight=" ++ quoted "bold" ++ " fill=" ++ quoted "white"
          ++ " text-anchor=" ++ quoted "middle"
          ++ " dominant-baseline=" ++ quoted "central" ++ ">RL4</text>" ++ nl).
      chunks; reflexivity. }
    apply contains_spec in B as (a & b & Hb).
    apply contains_spec.
    destruct (add_snapshot && (size >=? 128)); subst tail; rewrite Hb;
      eexists a, _; rewrite !app_assoc_s; reflexivity.
Qed.

Lemma background_rect_fills_canvas_16 :
  nth_error (tags (create_svg_icon 16 false)) 1
  = Some (elem "rect" [("width", "16"); ("height", "16"); ("fill", "#5436DA")])
  /\ contains ("<rect width=" ++ quoted "16" ++ " height=" ++ quoted "16"
                 ++ " fill=" ++ quoted "#5436DA" ++ "/>")
              (create_svg_icon 16 false) = true.
Proof. apply (background_rect_fills_canvas 16 false); lia. Defined.






(** C9. From size 128 on, the text with the badge is the text without it
    with the badge block inserted just before the closing tag: what stands
    before the final closing tag of the plain text is a prefix of it. *)
Theorem snapshot_inserted_before_close (size : Z) :
  size >= 128 ->
  create_svg_icon size false
  = drop_last (String.length "</svg>") (create_svg_icon size false) ++ "</svg>"
  /\ create_svg_icon size true
     = drop_last (String.length "</svg>") (create_svg_icon size false)
         ++ svg_snapshot size ++ "</svg>"
  /\ starts_with
       (drop_last (String.length "</svg>") (create_svg_icon size false))
       (create_svg_icon size true) = true.
Proof.
  intros H.
  assert (E : (size >=? 128) = true) by (apply Z.geb_le; lia).
  rewrite (snapshot_guard_false size false) by reflexivity.
  rewrite (snapshot_guard_true size true) by (now rewrite E).
  rewrite drop_last_app.
  repeat split; apply starts_with_app.
Qed.

Lemma snapshot_inserted_before_close_128 :
  create_svg_icon 128 true
  = drop_last (String.length "</svg>") (create_svg_icon 128 false)
      ++ svg_snapshot 128 ++ "</svg>".
Proof.
  apply (proj1 (proj2 (snapshot_inserted_before_close 128 ltac:(lia)))).
Defined.

(** C10. The first tag of the output is the opening [svg] tag, and its
    [xmlns] attribute is the SVG namespace. *)
Theorem svg_namespace_declared (size : Z) (add_snapshot : bool) :
  hd_error (tags (create_svg_icon size add_snapshot))
  = Some (open_tag "svg" [("width", str size); ("height", str size);
                          ("xmlns", "http://www.w3.org/2000/svg")])
  /\ attr_value "xmlns"
       (open_tag "svg" [("width", str size); ("height", str size);
                        ("xmlns", "http://www.w3.org/2000/svg")])
     = Some "http://www.w3.org/2000/svg"
  /\ starts_with "<svg " (create_svg_icon size add_snapshot) = true.
Proof.
  split; [|split].
  - now rewrite tags_create_svg_icon.
  - unfold attr_value; spell; merge; repeat find_step.
    cbn [option_map append]; until_step; reflexivity.
  - unfold create_svg_icon, svg_base, svg_base_of; cbv zeta.
    destruct (add_snapshot && (size >=? 128)); reflexivity.
Qed.

(** ** Reading the icon back *)

Module ReadFacts.
Import Driver Read.

Lemma read_int_str (n : Z) : read_int (str n) = Some n.
Proof. apply str_inverse. Qed.

Lemma str_injective (a b : Z) : str a = str b -> a = b.
Proof.
  intros H; pose proof (read_int_str a) as Ha.
  rewrite H, read_int_str in Ha; congruence.
Qed.

(** Looking an attribute up in a tag written as chunks. *)
Ltac find_last :=
  try match goal with
      | |- context [find_after ?p ?a] =>
          closed_text a;
          let v := eval vm_compute in (find_after p a) in
          change (find_after p a) with v
      end.

Ltac lookup_attr :=
  unfold attr_int, attr_value; spell; merge; repeat find_step; find_last;
  cbn [option_map append]; until_step; rewrite ?app_nil_r_s.

Lemma svg_tag_width (size : Z) :
  attr_int "width" (open_tag "svg" [("width", str size); ("height", str size);
                                    ("xmlns", "http://www.w3.org/2000/svg")])
  = Some size.
Proof. lookup_attr. apply read_int_str. Qed.

Lemma svg_tag_height (size : Z) :
  attr_int "height" (open_tag "svg" [("width", str size); ("height", str size);
                                     ("xmlns", "http://www.w3.org/2000/svg")])
  = Some size.
Proof. lookup_attr. apply read_int_str. Qed.

(** The size is written as width and as height of the first tag. *)
Lemma svg_size_create_svg_icon (size : Z) (add_snapshot : bool) :
  svg_size (create_svg_icon size add_snapshot) = Some (size, size).
Proof.
  unfold svg_size; rewrite tags_create_svg_icon; unfold base_tags; cbn [app].
  now rewrite svg_tag_width, svg_tag_height.
Qed.

Lemma all_chars_app (P : ascii -> bool) (a b : string) :
  all_chars P (a ++ b) = all_chars P a && all_chars P b.
Proof.
  induction a as [|x a IH]; [reflexivity|].
  cbn [append all_chars]; now rewrite IH, andb_assoc.
Qed.

Lemma all_chars_mem (P : ascii -> bool) (s : string) (c : ascii) :
  all_chars P s = true -> mem c s = true -> P c = true.
Proof.
  induction s as [|x s IH]; [discriminate|].
  cbn [all_chars mem]; intros H M.
  apply andb_true_iff in H as [Hx Hs].
  apply orb_true_iff in M as [M|M]; [|now apply IH].
  apply Ascii.eqb_eq in M; now subst.
Qed.

Lemma all_chars_intro (P : ascii -> bool) (s : string) :
  (forall c, mem c s = true -> P c = true) -> all_chars P s = true.
Proof.
  induction s as [|x s IH]; [reflexivity|]; intros H.
  cbn [all_chars]; apply andb_true_iff; split.
  - apply H; cbn [mem]; now rewrite Ascii.eqb_refl.
  - apply IH; intros c M; apply H; cbn [mem]; now rewrite M, orb_true_r.
Qed.

(** What holds of the digits and of the minus sign holds of every
    character of a rendered integer. *)
Lemma all_chars_str (P : ascii -> bool) (n : Z) :
  all_chars P "-0123456789" = true -> all_chars P (str n) = true.
Proof.
  intros H; apply all_chars_intro; intros c M.
  apply (all_chars_mem _ _ _ H).
  destruct (mem c "-0123456789") eqn:E; [reflexivity|].
  now rewrite (str_chars _ n E) in M.
Qed.

Lemma find_after_absent (c : ascii) (p s : string) :
  mem c p = true -> mem c s = false -> find_after p s = None.
Proof.
  intros Hp; induction s as [|x s IH]; intros Hs.
  - destruct p; [discriminate | reflexivity].
  - assert (N : starts_with p (String x s) = false).
    { destruct (starts_with p (String x s)) eqn:E; [|reflexivity].
      now rewrite (starts_with_mem _ _ _ E Hp) in Hs. }
    change (find_after p (String x s))
      with (if starts_with p (String x s)
            then Some (drop (String.length p) (String x s))
            else find_after p s).
    rewrite N; apply IH.
    cbn [mem] in Hs; now apply orb_false_iff in Hs.
Qed.

Ltac no_search_left :=
  lazymatch goal with
  | |- context [find_after] => fail
  | _ => idtac
  end.

Ltac find_none c :=
  rewrite (find_after_absent c);
  [ | reflexivity | rewrite ?mem_app, ?str_chars by reflexivity; reflexivity ].

(** One attribute of a tag, by one of three routes: walking the chunks, a
    letter of the name that the tag lacks, or both in turn. *)
Ltac attr_is :=
  rewrite ?read_int_str;
  first
    [ lookup_attr; no_search_left; rewrite ?read_int_str; reflexivity
    | unfold attr_int, attr_value; spell; merge; find_none "x"%char; reflexivity
    | unfold attr_int, attr_value; spell; merge; find_step; find_none "y"%char;
      reflexivity ].

Ltac coords :=
  unfold numeric_coords, coordinate_names; cbn [flat_map];
  repeat match goal with
         | |- context [attr_int ?n ?t] =>
             let H := fresh in
             eassert (H : attr_int n t = _) by attr_is;
             rewrite H; clear H
         end.

Lemma coords_polygon (size : Z) :
  numeric_coords
    (elem "polygon"
       [("points", str (size - 24) ++ "," ++ str (size - 60) ++ " "
                   ++ str (size - 28) ++ "," ++ str (size - 56) ++ " "
                   ++ str (size - 20) ++ "," ++ str (size - 56));
        ("fill", "white")]) = [].
Proof. coords. reflexivity. Qed.

Lemma coords_line (size dy : Z) :
  numeric_coords (snapshot_line size dy)
  = [size - 36; size - dy; size - 8; size - dy].
Proof. unfold snapshot_line. coords. reflexivity. Qed.

Lemma coords_svg (size : Z) :
  numeric_coords (open_tag "svg" [("width", str size); ("height", str size);
                                  ("xmlns", "http://www.w3.org/2000/svg")]) = [].
Proof. coords. reflexivity. Qed.

Lemma coords_background (size : Z) :
  numeric_coords (elem "rect" [("width", str size); ("height", str size);
                               ("fill", "#5436DA")]) = [].
Proof. coords. reflexivity. Qed.

Lemma coords_text (half : Z) :
  numeric_coords
    (open_tag "text" [("x", "50%"); ("y", "50%");
                      ("font-family", "Arial, sans-serif");
                      ("font-size", str half); ("font-weight", "bold");
                      ("fill", "white"); ("text-anchor", "middle");
                      ("dominant-baseline", "central")]) = [].
Proof. coords. reflexivity. Qed.

Lemma coords_square (size : Z) :
  numeric_coords
    (elem "rect" [("x", str (size - 40)); ("y", str (size - 40));
                  ("width", "32"); ("height", "32"); ("fill", "none");
                  ("stroke", "white"); ("stroke-width", "2")])
  = [size - 40; size - 40].
Proof. coords. reflexivity. Qed.

Lemma coords_circle (size : Z) :
  numeric_coords
    (elem "circle" [("cx", str (size - 24)); ("cy", str (size - 52));
                    ("r", "8"); ("fill", "none");
                    ("stroke", "white"); ("stroke-width", "2")])
  = [size - 24; size - 52].
Proof. coords. reflexivity. Qed.

(** The numeric coordinates of the whole document, in order. *)
Lemma coords_create_svg_icon (size : Z) (add_snapshot : bool) :
  flat_map numeric_coords (tags (create_svg_icon size add_snapshot))
  = if add_snapshot && (size >=? 128)
    then [size - 40; size - 40;
          size - 36; size - 30; size - 8; size - 30;
          size - 36; size - 24; size - 8; size - 24;
          size - 36; size - 18; size - 8; size - 18;
          size - 24; size - 52]
    else [].
Proof.
  rewrite tags_create_svg_icon; unfold base_tags, snapshot_tags.
  rewrite !flat_map_app; cbn [flat_map].
  rewrite coords_svg, coords_background, coords_text.
  destruct (add_snapshot && (size >=? 128)); cbn [flat_map].
  - now rewrite coords_square, !coords_line, coords_circle, coords_polygon.
  - reflexivity.
Qed.

(** The element names of the document, in order. *)
Lemma names_create_svg_icon (size : Z) (add_snapshot : bool) :
  map tag_name (tags (create_svg_icon size add_snapshot))
  = (["svg"; "rect"; "text"; "/text"]
       ++ (if add_snapshot && (size >=? 128)
           then ["rect"; "line"; "line"; "line"; "circle"; "polygon"]
           else [])
       ++ ["/svg"])%list.
Proof.
  rewrite tags_create_svg_icon; unfold base_tags, snapshot_tags, snapshot_line.
  destruct (add_snapshot && (size >=? 128)); cbn [app map];
    rewrite !tag_name_open_tag, !tag_name_elem by (discriminate || reflexivity);
    reflexivity.
Qed.

End ReadFacts.

(** ** The header builder *)

Module PngFacts.
Import Png.

Lemma byte_of_value (z : Z) : Z.of_N (Byte.to_N (byte_of z)) = z mod 256.
Proof.
  unfold byte_of.
  pose proof (Z.mod_pos_bound z 256 ltac:(lia)) as B.
  destruct (Byte.of_N (Z.to_N (z mod 256))) eqn:E.
  - apply Byte.to_of_N in E; rewrite E; lia.
  - apply Byte.of_N_None_iff in E; lia.
Qed.

(** Four bytes, most significant first, read back as the number. *)
Lemma be_value_be4 (x : Z) : 0 <= x <= 4294967295 -> be_value (be4 x) = x.
Proof.
  intros R; unfold be_value, be4; cbn [fold_left].
  rewrite !byte_of_value, !Z.shiftr_div_pow2 by lia.
  change (2 ^ 24) with 16777216; change (2 ^ 16) with 65536; change (2 ^ 8) with 256.
  Z.to_euclidean_division_equations; lia.
Qed.

Lemma pack_I_in_range (x : Z) : 0 <= x <= 4294967295 -> pack_I x = inr (be4 x).
Proof.
  intros [L U]; unfold pack_I.
  apply Z.leb_le in L, U; now rewrite L, U.
Qed.

Lemma pack_I_out_of_range (x : Z) :
  x < 0 \/ 4294967295 < x -> pack_I x = inl StructError.
Proof.
  intros H; unfold pack_I.
  destruct (0 <=? x) eqn:L; [|reflexivity].
  destruct (x <=? 4294967295) eqn:U; [|reflexivity].
  apply Z.leb_le in L, U; lia.
Qed.

(** The bytes returned for dimensions in range. *)
Lemma create_simple_png_in_range (width height : Z) (bg_color text_color : Z * Z * Z) :
  0 <= width <= 4294967295 -> 0 <= height <= 4294967295 ->
  create_simple_png width height bg_color text_color
  = inr (signature ++ [x00; x00; x00; x0d] ++ IHDR
           ++ be4 width ++ be4 height ++ [x08; x02; x00; x00; x00]
           ++ [x9a; x76; x8c; x92])%list.
Proof.
  intros W H; unfold create_simple_png, pack_IIBBBBB.
  rewrite (pack_I_in_range _ W), (pack_I_in_range _ H).
  reflexivity.
Qed.

End PngFacts.

(** ** Further properties of the script *)

Import Driver Read ReadFacts Png PngFacts.

(** X1. [create_simple_png] raises [struct.error] exactly when a dimension
    is outside 0 .. 2^32 - 1, and returns bytes exactly when both are
    inside, whatever the two colours. *)
Theorem create_simple_png_error_iff
    (width height : Z) (bg_color text_color : Z * Z * Z) :
  (create_simple_png width height bg_color text_color = inl StructError
   <-> (width < 0 \/ 4294967295 < width \/ height < 0 \/ 4294967295 < height))
  /\ ((exists png, create_simple_png width height bg_color text_color = inr png)
      <-> (0 <= width <= 4294967295 /\ 0 <= height <= 4294967295)).
Proof.
  destruct (Z_lt_le_dec width 0) as [W|W];
    [|destruct (Z_lt_le_dec 4294967295 width) as [W'|W']].
  1,2: assert (E : create_simple_png width height bg_color text_color
                   = inl StructError)
         by (unfold create_simple_png, pack_IIBBBBB;
             rewrite (pack_I_out_of_range width) by lia; reflexivity);
       rewrite E; split; split; try tauto; try lia;
       intros [png Hp]; discriminate.
  destruct (Z_lt_le_dec height 0) as [H|H];
    [|destruct (Z_lt_le_dec 4294967295 height) as [H'|H']].
  1,2: assert (E : create_simple_png width height bg_color text_color
                   = inl StructError)
         by (unfold create_simple_png, pack_IIBBBBB;
             rewrite (pack_I_in_range width), (pack_I_out_of_range height) by lia;
             reflexivity);
       rewrite E; split; split; try tauto; try lia;
       intros [png Hp]; discriminate.
  rewrite create_simple_png_in_range by lia.
  split; split; try discriminate; try lia.
  intros _; eexists; reflexivity.
Qed.

(** X2. For dimensions in range the result has 33 bytes: the signature, a
    chunk whose length field counts its data bytes, the chunk type, the two
    dimensions readable, most significant byte first, at offsets 16 and 20,
    then five fixed bytes and the fixed checksum. *)
Theorem create_simple_png_layout
    (width height : Z) (bg_color text_color : Z * Z * Z) :
  0 <= width <= 4294967295 -> 0 <= height <= 4294967295 ->
  exists png : list byte,
    create_simple_png width height bg_color text_color = inr png
    /\ List.length png = 33%nat
    /\ firstn 8 png = signature
    /\ be_value (firstn 4 (skipn 8 png))
       = Z.of_nat (List.length png) - 8 - 4 - 4 - 4
    /\ firstn 4 (skipn 12 png) = IHDR
    /\ be_value (firstn 4 (skipn 16 png)) = width
    /\ be_value (firstn 4 (skipn 20 png)) = height
    /\ skipn 24 png = [x08; x02; x00; x00; x00; x9a; x76; x8c; x92].
Proof.
  intros W H; eexists; split; [now apply create_simple_png_in_range|].
  repeat split.
  - change (be_value (be4 width) = width); now apply be_value_be4.
  - change (be_value (be4 height) = height); now apply be_value_be4.
Qed.

Lemma create_simple_png_layout_16 :
  exists png : list byte,
    create_simple_png 16 16 (84, 54, 218) (255, 255, 255) = inr png
    /\ List.length png = 33%nat
    /\ firstn 8 png = signature
    /\ be_value (firstn 4 (skipn 8 png))
       = Z.of_nat (List.length png) - 8 - 4 - 4 - 4
    /\ firstn 4 (skipn 12 png) = IHDR
    /\ be_value (firstn 4 (skipn 16 png)) = 16
    /\ be_value (firstn 4 (skipn 20 png)) = 16
    /\ skipn 24 png = [x08; x02; x00; x00; x00; x9a; x76; x8c; x92].
Proof.
  apply (create_simple_png_layout 16 16 (84, 54, 218) (255, 255, 255)); lia.
Defined.

(** X3. Two calls of [create_simple_png] that return the same bytes were
    given the same dimensions. *)
Theorem create_simple_png_injective
    (width height width' height' : Z) (bg bg' tc tc' : Z * Z * Z) (png : list byte) :
  create_simple_png width height bg tc = inr png ->
  create_simple_png width' height' bg' tc' = inr png ->
  width = width' /\ height = height'.
Proof.
  intros A B.
  assert (R : forall w h c c' p, create_simple_png w h c c' = inr p ->
              0 <= w <= 4294967295 /\ 0 <= h <= 4294967295).
  { intros w h c c' p Hp.
    destruct (Z_lt_le_dec w 0); [|destruct (Z_lt_le_dec 4294967295 w)].
    1,2: unfold create_simple_png, pack_IIBBBBB in Hp;
         rewrite (pack_I_out_of_range w) in Hp by lia; discriminate.
    destruct (Z_lt_le_dec h 0); [|destruct (Z_lt_le_dec 4294967295 h)].
    1,2: unfold create_simple_png, pack_IIBBBBB in Hp;
         rewrite (pack_I_in_range w), (pack_I_out_of_range h) in Hp by lia;
         discriminate.
    lia. }
  destruct (R _ _ _ _ _ A) as [W H], (R _ _ _ _ _ B) as [W' H'].
  rewrite create_simple_png_in_range in A, B by assumption.
  rewrite <- A in B; clear A.
  match type of B with
  | inr ?x = inr ?y => assert (L : x = y) by congruence
  end.
  assert (Lw := f_equal (fun l => be_value (firstn 4 (skipn 16 l))) L).
  assert (Lh := f_equal (fun l => be_value (firstn 4 (skipn 20 l))) L).
  change (be_value (be4 width') = be_value (be4 width)) in Lw.
  change (be_value (be4 height') = be_value (be4 height)) in Lh.
  rewrite !be_value_be4 in Lw, Lh by assumption.
  now split.
Qed.

Lemma create_simple_png_injective_16_48 : 16 = 16 /\ 48 = 48.
Proof.
  apply (create_simple_png_injective 16 48 16 48
           (84, 54, 218) (0, 0, 0) (255, 255, 255) (0, 0, 0)
           [x89; x50; x4e; x47; x0d; x0a; x1a; x0a; x00; x00; x00; x0d;
            x49; x48; x44; x52; x00; x00; x00; x10; x00; x00; x00; x30;
            x08; x02; x00; x00; x00; x9a; x76; x8c; x92]); reflexivity.
Defined.

(** X5. The file name the loop builds from a size determines the size: two
    sizes never share a file. *)
Theorem icon_path_injective (a b : Z) : icon_path a = icon_path b -> a = b.
Proof.
  unfold icon_path; cbn [append]; intros [= H].
  apply (f_equal (take_until ".")) in H.
  rewrite !take_until_skip in H by (apply str_chars; reflexivity).
  cbn [take_until Ascii.eqb Bool.eqb] in H; rewrite !app_nil_r_s in H.
  now apply str_injective.
Qed.

Lemma icon_path_injective_16 : 16 = 16.
Proof. apply (icon_path_injective 16 16); reflexivity. Defined.

(** X6. For every integer size and every flag, the width and the height
    written in the first tag, read back as decimal numerals, are the size. *)
Theorem svg_size_round_trip (size : Z) (add_snapshot : bool) :
  svg_size (create_svg_icon size add_snapshot) = Some (size, size).
Proof. apply svg_size_create_svg_icon. Qed.

(** X7. The text determines the size, and from size 128 on the flag as
    well: different sizes never give the same document. *)
Theorem create_svg_icon_injective
    (size size' : Z) (add_snapshot add_snapshot' : bool) :
  create_svg_icon size add_snapshot = create_svg_icon size' add_snapshot' ->
  size = size' /\ (128 <= size -> add_snapshot = add_snapshot').
Proof.
  intros H.
  assert (S : size = size').
  { pose proof (svg_size_create_svg_icon size add_snapshot) as R.
    rewrite H, svg_size_create_svg_icon in R; congruence. }
  split; [exact S|]; subst size'; intros G.
  assert (E : (size >=? 128) = true) by (apply Z.geb_le; lia).
  assert (K : forall b, mem "k" (create_svg_icon size b) = b).
  { intros [|].
    - rewrite (snapshot_guard_true size true) by (now rewrite E).
      now rewrite !mem_app, snapshot_has_k, orb_true_r.
    - rewrite (snapshot_guard_false size false) by reflexivity.
      apply base_lacks_k. }
  now rewrite <- (K add_snapshot), H, K.
Qed.

Lemma create_svg_icon_injective_128 :
  128 = 128 /\ (128 <= 128 -> true = true).
Proof. apply (create_svg_icon_injective 128 128 true true); reflexivity. Defined.

(** X8. Whatever the size and the flag, the text consists of printable
    ASCII characters and line feeds only. *)
Theorem create_svg_icon_plain (size : Z) (add_snapshot : bool) :
  all_chars plain_char (create_svg_icon size add_snapshot) = true.
Proof.
  destruct (add_snapshot && (size >=? 128)) eqn:E;
    [rewrite (snapshot_guard_true _ _ E) | rewrite (snapshot_guard_false _ _ E)];
    chunks; rewrite !all_chars_app, !all_chars_str by reflexivity; reflexivity.
Qed.

(** X9. Whatever the size and the flag, every numeric coordinate written
    in the document lies strictly inside the canvas: there are sixteen of
    them when the badge is drawn and none otherwise. *)
Theorem coordinates_inside_canvas (size : Z) (add_snapshot : bool) :
  Forall (fun v => 0 < v < size)
         (flat_map numeric_coords (tags (create_svg_icon size add_snapshot)))
  /\ List.length (flat_map numeric_coords (tags (create_svg_icon size add_snapshot)))
     = if add_snapshot && (size >=? 128) then 16%nat else 0%nat.
Proof.
  rewrite coords_create_svg_icon.
  destruct (add_snapshot && (size >=? 128)) eqn:E; [|split; [constructor | reflexivity]].
  apply andb_true_iff in E as [_ E]; apply Z.geb_le in E.
  split; [|reflexivity].
  repeat (constructor; [lia|]); constructor.
Qed.

(** X10. For every size and flag the document has the same elements in the
    same order: svg, rect, text and its closing tag, then, only from size
    128 on with the flag, rect, three lines, circle and polygon, and the
    closing svg tag. *)
Theorem element_names (size : Z) (add_snapshot : bool) :
  map tag_name (tags (create_svg_icon size add_snapshot))
  = (["svg"; "rect"; "text"; "/text"]
       ++ (if add_snapshot && (size >=? 128)
           then ["rect"; "line"; "line"; "line"; "circle"; "polygon"]
           else [])
       ++ ["/svg"])%list.
Proof. apply names_create_svg_icon. Qed.
